(** * Linear-regression teaching scripts: cost function and model output

    A shallow embedding of the functions that the scripts
    [CostFunction.py], [LinearRegression.py] and [linearRegression.py]
    define, the properties of them that the specification states, and
    further properties that the code shows.

    Numbers.  The scripts compute on numpy scalars: [float64] (binary64,
    every operation rounded to nearest even, with infinities and NaN) on
    the arrays they build from decimal literals, and [int64] (wrapping
    around modulo [2^64]) on arrays built from integer literals.  The
    functions are written over a type of numbers with its operations, the
    class [Arith], and use these operations in the order of the source.
    A theorem stated for every [Arith] holds whatever the operations are;
    a theorem about values is stated for [numpy_arith], the arithmetic of
    the scripts, built on the binary64 numbers of the kernel.  The exact
    arithmetic of the rationals, [exact_arith], interprets the formulas
    of the specification.

    Arrays.  A numpy array is a mutable object that Python passes by
    reference: the model keeps the arrays in a store and passes
    references, so that two arguments may well be the same array, and
    that "the function does not modify its inputs" is a statement about
    the store.  The store also carries what has been printed. *)

From Stdlib Require Import ZArith QArith Qfield Lia Permutation.
From Stdlib Require Import Floats.
From stdpp Require Import base option list gmap fin_maps.

Set Warnings "-inexact-float".

(** ** Numbers and their operations *)

Class Arith (num : Type) : Type := {
  num_of_int : Z -> num;             (* a Python int literal, as in [cost_sum = 0] *)
  num_add : num -> num -> num;       (* [a + b] *)
  num_sub : num -> num -> num;       (* [a - b] *)
  num_mul : num -> num -> num;       (* [a * b] *)
  sqr : num -> num;                  (* [a ** 2] *)
  int_truediv : Z -> Z -> num;       (* [a / b] on Python ints, [b <> 0] *)
  zero64 : num;                      (* an element of [np.zeros(m)] *)
  as_float64 : num -> num            (* a value assigned into a float64 array *)
}.

Declare Scope num_scope.
Delimit Scope num_scope with num.
Notation "a + b" := (num_add a b) : num_scope.
Notation "a - b" := (num_sub a b) : num_scope.
Notation "a * b" := (num_mul a b) : num_scope.

(** *** Exact arithmetic *)

#[export] Instance exact_arith : Arith Q := {|
  num_of_int := inject_Z;
  num_add := Qplus;
  num_sub := Qminus;
  num_mul := Qmult;
  sqr := fun q => (q ^ 2)%Q;
  int_truediv := fun a b => (inject_Z a / inject_Z b)%Q;
  zero64 := 0%Q;
  as_float64 := fun q => q
|}.

(** *** The arithmetic of numpy scalars *)

(** A [float64], or an [int64]; a Python int within the range of [int64]
    is an [NpI] too: combined with an [int64] it gives an [int64],
    combined with a [float64] it is converted. *)
Inductive npnum : Type :=
  | NpF (f : float)
  | NpI (z : Z).

(** The [int64] that an integer result wraps to. *)
Definition wrap64 (z : Z) : Z :=
  ((z + 2 ^ 63) mod 2 ^ 64 - 2 ^ 63)%Z.

(** The [float64] nearest to an integer of the range of [int64]: the
    conversion is exact below [2^53] in absolute value. *)
Definition float_of_Z (z : Z) : float :=
  match z with
  | Z0 => 0%float
  | Zpos _ => of_uint63 (Uint63.of_Z z)
  | Zneg p =>
      if (z =? - 2 ^ 63)%Z then (-9223372036854775808)%float
      else (- of_uint63 (Uint63.of_Z (Zpos p)))%float
  end.

Definition to_float (a : npnum) : float :=
  match a with
  | NpF f => f
  | NpI z => float_of_Z z
  end.

(** A binary operation: on two integers in [int64], else in [float64]. *)
Definition np_binop (on_int : Z -> Z -> Z) (on_float : float -> float -> float)
    (a b : npnum) : npnum :=
  match a, b with
  | NpI x, NpI y => NpI (wrap64 (on_int x y))
  | _, _ => NpF (on_float (to_float a) (to_float b))
  end.

(** [a ** 2]: on an [int64] the product, wrapped; on a [float64] the
    square rounded once, which is what the C library's [pow] that numpy
    calls returns whenever the square is a float64, and a number of the
    same sign in any case. *)
Definition np_square (a : npnum) : npnum :=
  match a with
  | NpI x => NpI (wrap64 (x * x))
  | NpF f => NpF (f * f)%float
  end.

#[export] Instance numpy_arith : Arith npnum := {|
  num_of_int := NpI;
  num_add := np_binop Z.add PrimFloat.add;
  num_sub := np_binop Z.sub PrimFloat.sub;
  num_mul := np_binop Z.mul PrimFloat.mul;
  sqr := np_square;
  int_truediv := fun a b => NpF (float_of_Z a / float_of_Z b)%float;
  zero64 := NpF 0%float;
  as_float64 := fun a => NpF (to_float a)
|}.

(** [np.array([...])] of float literals, and of int literals. *)
Definition np_floats (l : list float) : list npnum := map NpF l.
Definition np_ints (l : list Z) : list npnum := map NpI l.

(** The rational that a finite [float64] is; none for infinities and NaN. *)
Definition float_value (f : float) : option Q :=
  match Prim2SF f with
  | S754_zero _ => Some 0%Q
  | S754_finite s m e =>
      Some (Qred ((if s then -1 else 1) * inject_Z (Zpos m) * 2 ^ e))%Q
  | S754_infinity _ | S754_nan => None
  end.

Definition np_value (a : npnum) : option Q :=
  match a with
  | NpF f => float_value f
  | NpI z => Some (inject_Z z)
  end.

(** ** Store, outcomes and the monad of Python code *)

(** A line written by [print]: the values it interpolates, not its text. *)
Inductive event (num : Type) : Type :=
  | PrintArray (a : list num)        (* print(f"f_wb = {f_wb}") *)
  | PrintItem (j : nat) (v : num).   (* print(f"{j} 'th f_wb = {f_wb [j]}") *)
Arguments PrintArray {num} a.
Arguments PrintItem {num} j v.

Record store (num : Type) : Type := Store {
  heap : gmap nat (list num);        (* the numpy arrays, by reference *)
  stdout : list (event num)          (* what has been printed, oldest first *)
}.
Arguments Store {num} heap stdout.
Arguments heap {num} s.
Arguments stdout {num} s.

(** The exceptions the modelled code can raise.  [DanglingRef] is not a
    Python exception: it is the model's answer for a reference that names
    no array of the store, which Python rules out. *)
Inductive exn : Type :=
  | ZeroDivisionError
  | IndexError
  | DanglingRef.

Inductive outcome (A : Type) : Type :=
  | Ok (a : A)
  | Raise (e : exn).
Arguments Ok {A} a.
Arguments Raise {A} e.

Definition M (num A : Type) : Type := store num -> outcome A * store num.

#[export] Instance M_ret {num : Type} : MRet (M num) := fun A a s => (Ok a, s).

#[export] Instance M_bind {num : Type} : MBind (M num) := fun A B f c s =>
  match c s with
  | (Ok a, s') => f a s'
  | (Raise e, s') => (Raise e, s')
  end.

Definition raise {num A : Type} (e : exn) : M num A := fun s => (Raise e, s).

(** ** numpy and Python primitives *)

(** The array a reference denotes. *)
Definition deref {num : Type} (x : nat) : M num (list num) := fun s =>
  match heap s !! x with
  | Some a => (Ok a, s)
  | None => (Raise DanglingRef, s)
  end.

(** [x.shape[0]] of a one-dimensional array. *)
Definition shape0 {num : Type} (x : nat) : M num nat :=
  a ← deref x; mret (length a).

(** [x[i]] for an index [i >= 0]: numpy raises IndexError out of bounds. *)
Definition getitem {num : Type} (x : nat) (i : nat) : M num num :=
  a ← deref x;
  match a !! i with
  | Some v => mret v
  | None => raise IndexError
  end.

(** Replace the contents of the array [x] of the store. *)
Definition store_array {num : Type} (x : nat) (a : list num) : M num unit := fun s =>
  (Ok tt, Store (<[x := a]> (heap s)) (stdout s)).

(** [x[i] = v] for an index [i >= 0]: in place, IndexError out of bounds. *)
Definition setitem {num : Type} (x : nat) (i : nat) (v : num) : M num unit :=
  a ← deref x;
  if decide (i < length a)%nat
  then store_array x (<[i := v]> a)
  else raise IndexError.

(** [np.zeros(m)]: a new array of [m] zeros, distinct from every other. *)
Definition np_zeros {num : Type} {A : Arith num} (m : nat) : M num nat := fun s =>
  let l := fresh (dom (heap s)) in
  (Ok l, Store (<[l := replicate m zero64]> (heap s)) (stdout s)).

Definition print {num : Type} (e : event num) : M num unit := fun s =>
  (Ok tt, Store (heap s) (stdout s ++ [e])).

(** [a / b] on Python integers: true division, ZeroDivisionError on 0. *)
Definition truediv {num : Type} {A : Arith num} (a b : Z) : M num num :=
  if decide (b = 0)%Z then raise ZeroDivisionError
  else mret (int_truediv a b).

(** [for i in idx: acc = body(i, acc)], [acc] being the locals the body
    assigns; an exception leaves the loop. *)
Fixpoint for_each {num A : Type} (idx : list nat) (body : nat -> A -> M num A) (acc : A)
    : M num A :=
  match idx with
  | [] => mret acc
  | i :: rest => acc' ← body i acc; for_each rest body acc'
  end.

(** [for i in range(m)] *)
Definition for_range {num A : Type} (m : nat) (body : nat -> A -> M num A) (acc : A)
    : M num A :=
  for_each (seq 0 m) body acc.

(** ** CostFunction.py *)

Module CostFunction.

Definition x_train : list npnum := np_floats [1.0; 1.7; 2.0; 2.5; 3.0; 3.2]%float.
Definition y_train : list npnum := np_ints [250; 300; 480; 430; 630; 730]%Z.

Definition compute_cost {num : Type} {A : Arith num} (w b : num) (x y : nat) : M num num :=
  m ← shape0 x;
  cost_sum ← for_range m (fun i cost_sum =>
      xi ← getitem x i;
      yi ← getitem y i;
      mret (cost_sum + sqr (w * xi + b - yi))%num) (num_of_int 0);
  k ← truediv 1 (2 * Z.of_nat m);
  let total_cost := (k * cost_sum)%num in
  mret total_cost.

End CostFunction.

(** ** LinearRegression.py *)

Module LinearRegression.

Definition x_train : list npnum := np_floats [1.0; 2.0; 3.0; 4.0; 5.0]%float.
Definition y_train : list npnum := np_floats [289.0; 540.0; 860.0; 1364.0; 1659.0]%float.

Definition compute_cost {num : Type} {A : Arith num} (x y : nat) (w b : num) : M num num :=
  m ← shape0 x;
  cost ← for_range m (fun i cost =>
      xi ← getitem x i;
      yi ← getitem y i;
      mret (cost + sqr (w * xi + b - yi))%num) (num_of_int 0);
  k ← truediv 1 (2 * Z.of_nat m);
  mret (k * cost)%num.

(** The function stops after its first line: it reads [m] and returns
    [None] ([tt] here). *)
Definition compute_gradient {num : Type} (x y : nat) (w b : num) : M num unit :=
  m ← shape0 x;
  mret tt.

End LinearRegression.

(** ** linearRegression.py *)

Module linearRegression.

Definition x_train : list npnum := np_floats [1.0; 2.0; 4.0]%float.
Definition y_train : list npnum := np_floats [300.0; 500.0; 700.06]%float.

(** [f_wb] is a float64 array: what is assigned to [f_wb[j]] is cast. *)
Definition compite_model_output {num : Type} {A : Arith num} (x : nat) (w b : num)
    : M num nat :=
  m ← shape0 x;
  f_wb ← np_zeros m;
  a ← deref f_wb;
  _ ← print (PrintArray a);
  _ ← for_range m (fun j (_ : unit) =>
      xj ← getitem x j;
      _ ← setitem f_wb j (as_float64 (w * xj + b)%num);
      v ← getitem f_wb j;
      print (PrintItem j v)) tt;
  mret f_wb.

End linearRegression.

(** The store of a script once its two arrays are built: [x_train] is
    array 0 and [y_train] is array 1, nothing printed yet. *)
Definition script_store {num : Type} (x_train y_train : list num) : store num :=
  Store (<[0%nat := x_train]> (<[1%nat := y_train]> ∅)) [].

(** Run from [s] in exact arithmetic, [c] returns a number equal to [v]. *)
Definition returns (c : M Q Q) (s : store Q) (v : Q) : Prop :=
  exists r, fst (c s) = Ok r /\ (r == v)%Q.

(** ** The closed form of the specification, in exact arithmetic *)

Definition Qsum (l : list Q) : Q := fold_right Qplus 0%Q l.

(** The squared residual of sample [i]: [(w*x[i] + b - y[i])^2]. *)
Definition residual_sq (w b : Q) (xs ys : list Q) (i : nat) : Q :=
  ((w * nth i xs 0 + b - nth i ys 0) ^ 2)%Q.

(** The specification's closed form, following its words:
    [(1/(2*m))] times the sum over [i] in [[0, m)] of the squared
    residuals, [m] being the number of elements of [x]. *)
Definition cost_formula (w b : Q) (xs ys : list Q) : Q :=
  (1 / (2 * inject_Z (Z.of_nat (length xs)))
   * Qsum (map (residual_sq w b xs ys) (seq 0 (length xs))))%Q.

(** ** The same form, in the arithmetic of the arrays *)

(** The squared residuals of the samples, in the order of the samples. *)
Definition sq_residuals {num : Type} {A : Arith num} (w b : num) (xs ys : list num)
    : list num :=
  zip_with (fun xi yi => sqr (w * xi + b - yi)%num) xs ys.

(** The sum of a list accumulated from the integer 0, first element first. *)
Definition sum_in_order {num : Type} {A : Arith num} (l : list num) : num :=
  fold_left num_add l (num_of_int 0).

Definition cost_in_order {num : Type} {A : Arith num} (w b : num) (xs ys : list num)
    : num :=
  (int_truediv 1 (2 * Z.of_nat (length xs)) * sum_in_order (sq_residuals w b xs ys))%num.


(** ** What the cost loop computes from the contents of the arrays *)

Fixpoint cost_loop {num : Type} {A : Arith num} (w b : num) (xs ys : list num)
    (idx : list nat) (acc : num) : outcome num :=
  match idx with
  | [] => Ok acc
  | i :: rest =>
      match xs !! i, ys !! i with
      | Some xi, Some yi => cost_loop w b xs ys rest (acc + sqr (w * xi + b - yi))%num
      | _, _ => Raise IndexError
      end
  end.

Definition cost_value {num : Type} {A : Arith num} (w b : num) (xs ys : list num)
    : outcome num :=
  match cost_loop w b xs ys (seq 0 (length xs)) (num_of_int 0) with
  | Ok c =>
      if decide (2 * Z.of_nat (length xs) = 0)%Z then Raise ZeroDivisionError
      else Ok (int_truediv 1 (2 * Z.of_nat (length xs)) * c)%num
  | Raise e => Raise e
  end.

(** ** Signs of binary64 numbers *)





(** A numpy scalar that stands for the integer [z]: an [int64] or Python
    int, or the [float64] of that value. *)
Definition np_is (z : Z) (a : npnum) : Prop :=
  a = NpI z \/ a = NpF (float_of_Z z).

(** ** Running monadic code *)

Section Running.
Context {num A B : Type}.

Lemma bind_ok (c : M num A) (f : A -> M num B) s a s' :
  c s = (Ok a, s') -> (c ≫= f) s = f a s'.
Proof. intros H. unfold mbind, M_bind. now rewrite H. Qed.

Lemma bind_raise (c : M num A) (f : A -> M num B) s e s' :
  c s = (Raise e, s') -> (c ≫= f) s = (Raise e, s').
Proof. intros H. unfold mbind, M_bind. now rewrite H. Qed.

Lemma bind_store (c : M num A) (f : A -> M num B) s :
  snd (c s) = s -> (forall a, snd (f a s) = s) -> snd ((c ≫= f) s) = s.
Proof.
  intros Hc Hf. unfold mbind, M_bind.
  destruct (c s) as [[a|e] s'] eqn:E; simpl in Hc; subst s'; [apply Hf | reflexivity].
Qed.
End Running.

Lemma for_each_store {num A : Type} (body : nat -> A -> M num A) idx :
  (forall i a s, snd (body i a s) = s) ->
  forall acc s, snd (for_each idx body acc s) = s.
Proof.
  intros Hbody. induction idx as [|i rest IH]; intros acc s; simpl.
  - reflexivity.
  - apply bind_store; [apply Hbody | intros a; apply IH].
Qed.

Section Primitives.
Context {num : Type}.
Implicit Types (s : store num) (xs : list num).

Lemma deref_run s x xs : heap s !! x = Some xs -> deref x s = (Ok xs, s).
Proof. intros H. unfold deref. now rewrite H. Qed.

Lemma deref_store x s : snd (deref x s) = s.
Proof. unfold deref. now destruct (heap s !! x). Qed.

Lemma shape0_run s x xs : heap s !! x = Some xs -> shape0 x s = (Ok (length xs), s).
Proof. intros H. unfold shape0. now rewrite (bind_ok _ _ _ _ _ (deref_run _ _ _ H)). Qed.

Lemma shape0_store x s : snd (shape0 x s) = s.
Proof. unfold shape0. apply bind_store; [apply deref_store | reflexivity]. Qed.

Lemma getitem_run s x xs i :
  heap s !! x = Some xs ->
  getitem x i s = (match xs !! i with Some v => Ok v | None => Raise IndexError end, s).
Proof.
  intros H. unfold getitem. rewrite (bind_ok _ _ _ _ _ (deref_run _ _ _ H)).
  now destruct (xs !! i).
Qed.

Lemma getitem_store x i s : snd (getitem x i s) = s.
Proof.
  unfold getitem. apply bind_store; [apply deref_store |].
  intros a. now destruct (a !! i).
Qed.

Lemma truediv_store {A : Arith num} a b s : snd (truediv a b s) = s.
Proof. unfold truediv. now destruct (decide (b = 0)%Z). Qed.

Lemma fresh_not_allocated (h : gmap nat (list num)) : h !! fresh (dom h) = None.
Proof. apply not_elem_of_dom, is_fresh. Qed.

Lemma allocated_not_fresh (h : gmap nat (list num)) x xs :
  h !! x = Some xs -> x <> fresh (dom h).
Proof. intros Hx ->. rewrite fresh_not_allocated in Hx. discriminate Hx. Qed.
End Primitives.

(** ** The cost loop *)

Section Cost.
Context {num : Type} {A : Arith num}.
Variables w b : num.
Implicit Types (s : store num) (xs ys : list num).

Lemma cost_loop_run s x y xs ys idx acc :
  heap s !! x = Some xs -> heap s !! y = Some ys ->
  for_each idx (fun i c =>
      xi ← getitem x i;
      yi ← getitem y i;
      mret (c + sqr (w * xi + b - yi))%num) acc s
  = (cost_loop w b xs ys idx acc, s).
Proof.
  intros Hx Hy. revert acc.
  induction idx as [|i rest IH]; intros acc; cbn [for_each cost_loop]; [reflexivity|].
  pose proof (getitem_run s x xs i Hx) as Gx.
  pose proof (getitem_run s y ys i Hy) as Gy.
  destruct (xs !! i) as [xi|]; [destruct (ys !! i) as [yi|] |].
  - rewrite (bind_ok _ _ s (acc + sqr (w * xi + b - yi))%num s); [apply IH|].
    now rewrite (bind_ok _ _ _ _ _ Gx), (bind_ok _ _ _ _ _ Gy).
  - apply bind_raise. rewrite (bind_ok _ _ _ _ _ Gx). now apply bind_raise.
  - apply bind_raise. now apply bind_raise.
Qed.

(** The run of [compute_cost]: the store is returned as it was, and the
    outcome is a function of the contents of the two arrays. *)
Lemma compute_cost_run s x y xs ys :
  heap s !! x = Some xs -> heap s !! y = Some ys ->
  CostFunction.compute_cost w b x y s = (cost_value w b xs ys, s).
Proof.
  intros Hx Hy. unfold CostFunction.compute_cost, cost_value, for_range.
  rewrite (bind_ok _ _ _ _ _ (shape0_run _ _ _ Hx)).
  pose proof (cost_loop_run s x y xs ys (seq 0 (length xs)) (num_of_int 0) Hx Hy) as L.
  destruct (cost_loop w b xs ys (seq 0 (length xs)) (num_of_int 0)) as [c|e].
  - rewrite (bind_ok _ _ _ _ _ L). unfold truediv.
    destruct (decide (2 * Z.of_nat (length xs) = 0)%Z); reflexivity.
  - now apply bind_raise.
Qed.

Lemma compute_cost_store s x y :
  snd (CostFunction.compute_cost w b x y s) = s.
Proof.
  unfold CostFunction.compute_cost.
  apply bind_store; [apply shape0_store | intros m].
  apply bind_store; [| intros c; apply bind_store; [apply truediv_store | reflexivity]].
  apply for_each_store. intros i a s'.
  apply bind_store; [apply getitem_store | intros xi].
  apply bind_store; [apply getitem_store | reflexivity].
Qed.

Lemma LinearRegression_compute_cost_unfold x y :
  LinearRegression.compute_cost x y w b = CostFunction.compute_cost w b x y.
Proof. reflexivity. Qed.

(** *** The loop on the contents *)

(** On the samples that follow prefixes of equal lengths, the loop adds
    the squared residuals to the accumulator, first sample first. *)
Lemma cost_loop_samples xs : forall ys px py acc,
  length px = length py -> (length xs <= length ys)%nat ->
  cost_loop w b (px ++ xs) (py ++ ys) (seq (length px) (length xs)) acc
  = Ok (fold_left num_add (sq_residuals w b xs ys) acc).
Proof.
  induction xs as [|a xs IH]; intros ys px py acc Hp Hl; [reflexivity|].
  destruct ys as [|c ys]; [cbn in Hl; lia|].
  cbn [length seq cost_loop].
  rewrite (list_lookup_middle px xs a) by reflexivity.
  rewrite (list_lookup_middle py ys c) by exact Hp.
  replace (px ++ a :: xs) with ((px ++ [a]) ++ xs) by (now rewrite <- app_assoc).
  replace (py ++ c :: ys) with ((py ++ [c]) ++ ys) by (now rewrite <- app_assoc).
  replace (S (length px)) with (length (px ++ [a])) by (rewrite length_app; cbn; lia).
  rewrite IH; [reflexivity | rewrite !length_app; cbn; lia | cbn in Hl; lia].
Qed.

Lemma cost_loop_out_of_range xs ys idx acc :
  Exists (fun i => length ys <= i)%nat idx ->
  cost_loop w b xs ys idx acc = Raise IndexError.
Proof.
  intros H. revert acc.
  induction idx as [|i rest IH]; intros acc; cbn [cost_loop].
  - inversion H.
  - destruct (xs !! i) as [xi|]; [|reflexivity].
    destruct (ys !! i) as [yi|] eqn:Ey; [|reflexivity].
    apply Exists_cons in H as [Hi | Hrest]; [|now apply IH].
    apply lookup_lt_Some in Ey. lia.
Qed.

(** *** The three cases of [cost_value] *)

Lemma cost_value_ok xs ys :
  (1 <= length xs)%nat -> (length xs <= length ys)%nat ->
  cost_value w b xs ys = Ok (cost_in_order w b xs ys).
Proof.
  intros Hm Hle. unfold cost_value.
  rewrite (cost_loop_samples xs ys [] [] (num_of_int 0) eq_refl Hle).
  destruct (decide (2 * Z.of_nat (length xs) = 0)%Z) as [E|_]; [lia|]. reflexivity.
Qed.

Lemma cost_value_empty ys : cost_value w b [] ys = Raise ZeroDivisionError.
Proof. reflexivity. Qed.

Lemma cost_value_short xs ys :
  (length ys < length xs)%nat -> cost_value w b xs ys = Raise IndexError.
Proof.
  intros H. unfold cost_value.
  rewrite cost_loop_out_of_range; [reflexivity|].
  apply Exists_exists. exists (length ys). split; [|lia].
  apply list_elem_of_In, in_seq. lia.
Qed.

(** Only the first [len(x)] elements of [y] count. *)
Lemma sq_residuals_take xs ys :
  sq_residuals w b xs (take (length xs) ys) = sq_residuals w b xs ys.
Proof.
  unfold sq_residuals. revert ys.
  induction xs as [|a xs IH]; intros [|c ys]; cbn; [reflexivity..|].
  now rewrite IH.
Qed.

End Cost.


(** ** Reordering *)

Section Reordering.
Context {T : Type}.
Implicit Types (l : list T) (p : list nat).






End Reordering.


(** ** Exact arithmetic: the sum in order is the sum *)

Lemma fold_left_Qsum (l : list Q) acc :
  (fold_left Qplus l acc == acc + Qsum l)%Q.
Proof.
  revert acc. induction l as [|q l IH]; intros acc; cbn [fold_left Qsum fold_right].
  - ring.
  - rewrite IH. fold (Qsum l). ring.
Qed.

Lemma sq_residuals_exact (w b : Q) xs : forall ys,
  (length xs <= length ys)%nat ->
  sq_residuals w b xs ys = map (residual_sq w b xs ys) (seq 0 (length xs)).
Proof.
  induction xs as [|a xs IH]; intros [|c ys] Hl; [reflexivity | reflexivity | cbn in Hl; lia |].
  cbn [length seq map]. unfold sq_residuals. cbn [zip_with]. f_equal.
  rewrite <- seq_shift, map_map. fold (sq_residuals w b xs ys).
  rewrite IH by (cbn in Hl; lia). reflexivity.
Qed.

(** In exact arithmetic the value computed in order is the closed form
    of the specification. *)
Lemma cost_in_order_exact (w b : Q) xs ys :
  (1 <= length xs)%nat -> (length xs <= length ys)%nat ->
  (cost_in_order w b xs ys == cost_formula w b xs ys)%Q.
Proof.
  intros Hm Hl. unfold cost_in_order, sum_in_order, cost_formula.
  rewrite (sq_residuals_exact w b xs ys Hl).
  cbn [num_mul num_add num_of_int int_truediv exact_arith].
  rewrite fold_left_Qsum, inject_Z_mult.
  change (inject_Z 1) with 1%Q. change (inject_Z 2) with 2%Q. change (inject_Z 0) with 0%Q.
  field. unfold Qeq. simpl. lia.
Qed.

(** ** binary64: a square, and a sum or a product of numbers that are
       not negative, are not negative *)













(** ** numpy: on a float64 array [x] the squared residuals and their
       sum are float64 numbers that are not negative *)




(** ** The model output: the whole run *)

Section ModelRun.
Context {num : Type} {A : Arith num}.
Variables w b : num.
Variables (x f_wb : nat) (xs : list num).
Hypothesis distinct : x <> f_wb.
Implicit Types (s : store num) (fs : list num).

(** One round of the loop: element [k] is set, and one line printed. *)
Lemma model_body_run s k xk fs :
  heap s !! x = Some xs -> heap s !! f_wb = Some fs ->
  xs !! k = Some xk -> (k < length fs)%nat ->
  (xj ← getitem x k;
   _ ← setitem f_wb k (as_float64 (w * xj + b)%num);
   v ← getitem f_wb k;
   print (PrintItem k v)) s
  = (Ok tt, Store (<[f_wb := <[k := as_float64 (w * xk + b)%num]> fs]> (heap s))
                  (stdout s ++ [PrintItem k (as_float64 (w * xk + b)%num)])).
Proof.
  intros Hx Hf Exk Hk.
  set (v := as_float64 (w * xk + b)%num).
  set (s1 := Store (<[f_wb := <[k := v]> fs]> (heap s)) (stdout s)).
  rewrite (bind_ok _ _ s xk s); [|rewrite (getitem_run s x xs k Hx), Exk; reflexivity].
  rewrite (bind_ok _ _ s tt s1).
  - rewrite (bind_ok _ _ s1 v s1); [reflexivity|].
    rewrite (getitem_run s1 f_wb (<[k := v]> fs) k) by apply lookup_insert_eq.
    rewrite list_lookup_insert_eq by lia. reflexivity.
  - unfold setitem. rewrite (bind_ok _ _ _ _ _ (deref_run _ _ _ Hf)).
    destruct (decide (k < length fs)%nat); [reflexivity | lia].
Qed.

(** [n] rounds from index [k]: the store they end in. *)
Lemma model_loop_state n : forall k s fs,
  heap s !! x = Some xs -> heap s !! f_wb = Some fs ->
  length fs = length xs -> (k + n <= length xs)%nat ->
  for_each (seq k n) (fun j (_ : unit) =>
      xj ← getitem x j;
      _ ← setitem f_wb j (as_float64 (w * xj + b)%num);
      v ← getitem f_wb j;
      print (PrintItem j v)) tt s
  = (Ok tt,
     Store (<[f_wb := take k fs
                      ++ map (fun v => as_float64 (w * v + b)%num) (take n (drop k xs))
                      ++ drop (k + n) fs]> (heap s))
           (stdout s ++ imap (fun j xj => PrintItem (k + j) (as_float64 (w * xj + b)%num))
                             (take n (drop k xs)))).
Proof.
  induction n as [|n IH]; intros k s fs Hx Hf Hlen Hk; cbn [seq for_each].
  - rewrite Nat.add_0_r, take_0. cbn [map imap app].
    rewrite take_drop, app_nil_r, (insert_id _ _ _ Hf). now destruct s.
  - destruct (lookup_lt_is_Some_2 xs k) as [xk Exk]; [lia|].
    set (v := as_float64 (w * xk + b)%num).
    rewrite (bind_ok _ _ _ _ _ (model_body_run s k xk fs Hx Hf Exk ltac:(lia))).
    fold v. rewrite (IH (S k) _ (<[k := v]> fs)); cbn [heap stdout].
    + rewrite insert_insert_eq, (drop_S _ _ _ Exk). cbn [take map].
      rewrite imap_cons, Nat.add_0_r. fold v.
      rewrite (take_S_r _ _ v) by (apply list_lookup_insert_eq; lia).
      rewrite take_insert_ge by lia. rewrite drop_insert_lt by lia.
      rewrite <- !app_assoc. cbn [app].
      replace (S k + n)%nat with (k + S n)%nat by lia.
      do 4 f_equal. apply imap_ext. intros j xj _. cbn. do 2 f_equal. lia.
    + rewrite lookup_insert_ne; auto.
    + apply lookup_insert_eq.
    + now rewrite length_insert.
    + lia.
Qed.
End ModelRun.

(** The run of [compite_model_output]: the new array, and the store. *)
Lemma compite_model_output_run {num : Type} {A : Arith num} (w b : num) s x xs :
  heap s !! x = Some xs ->
  linearRegression.compite_model_output x w b s
  = (Ok (fresh (dom (heap s))),
     Store (<[fresh (dom (heap s)) := map (fun v => as_float64 (w * v + b)%num) xs]> (heap s))
           (stdout s ++ PrintArray (replicate (length xs) zero64)
                        :: imap (fun j xj => PrintItem j (as_float64 (w * xj + b)%num)) xs)).
Proof.
  intros Hx.
  set (l := fresh (dom (heap s))).
  set (zeros := replicate (length xs) zero64).
  set (s1 := Store (<[l := zeros]> (heap s)) (stdout s)).
  set (s2 := Store (heap s1) (stdout s1 ++ [PrintArray zeros])).
  assert (x <> l) as Hne by exact (allocated_not_fresh (heap s) x xs Hx).
  unfold linearRegression.compite_model_output, for_range.
  rewrite (bind_ok _ _ _ _ _ (shape0_run _ _ _ Hx)).
  rewrite (bind_ok _ _ s l s1) by reflexivity.
  rewrite (bind_ok _ _ s1 zeros s1) by (apply deref_run, lookup_insert_eq).
  rewrite (bind_ok _ _ s1 tt s2) by reflexivity.
  erewrite bind_ok;
    [| apply (model_loop_state w b x l xs Hne (length xs) 0 s2 zeros);
       [cbn; rewrite lookup_insert_ne; auto | apply lookup_insert_eq
       | apply length_replicate | lia]].
  cbn [heap stdout s2 s1 Nat.add]. unfold mret, M_ret.
  rewrite insert_insert_eq, take_0, drop_0, (take_ge xs) by lia.
  rewrite (drop_ge zeros) by (unfold zeros; rewrite length_replicate; lia).
  rewrite app_nil_r, <- app_assoc. reflexivity.
Qed.

(** ** The cost function: what the specification states *)

(** C1, as the specification states it, fails: on the arrays of
    LinearRegression.py, with [w = 300] and [b = -50], the number that
    [compute_cost] returns is not the real number
    [(1/(2*m))] times the sum of the [(w*x[i] + b - y[i])^2], which is
    [45599/5]: every operation rounds. *)
Lemma compute_cost_formula_counterexample :
  let s := script_store LinearRegression.x_train LinearRegression.y_train in
  map np_value LinearRegression.x_train = map Some [1; 2; 3; 4; 5]%Q
  /\ map np_value LinearRegression.y_train = map Some [289; 540; 860; 1364; 1659]%Q
  /\ exists c q,
       fst (LinearRegression.compute_cost 0 1 (NpI 300) (NpI (-50)) s) = Ok c
       /\ np_value c = Some q
       /\ ~ (q == cost_formula (inject_Z 300) (inject_Z (-50)) [1; 2; 3; 4; 5]
                    [289; 540; 860; 1364; 1659])%Q.
Proof.
  split; [vm_compute; reflexivity|]. split; [vm_compute; reflexivity|].
  eexists _, _. split; [vm_compute; reflexivity|]. split; [vm_compute; reflexivity|].
  intros H. vm_compute in H. discriminate H.
Qed.

(** C1, amended.  On equal-length arrays [x] and [y] of [m >= 1]
    elements and any [w] and [b], [compute_cost] (either script's)
    returns [(1/(2*m))] times the sum over [i] in [[0, m)] of
    [(w*x[i] + b - y[i])^2], every operation being the one of the
    arithmetic of the arrays (rounded, in float64) and the sum being
    accumulated from 0 in the order [i = 0, ..., m-1]. *)
Theorem compute_cost_formula {num : Type} {A : Arith num} (w b : num) s x y xs ys :
  heap s !! x = Some xs -> heap s !! y = Some ys ->
  length xs = length ys -> (1 <= length xs)%nat ->
  fst (CostFunction.compute_cost w b x y s) = Ok (cost_in_order w b xs ys)
  /\ fst (LinearRegression.compute_cost x y w b s) = Ok (cost_in_order w b xs ys).
Proof.
  intros Hx Hy Hlen Hm. rewrite LinearRegression_compute_cost_unfold.
  rewrite (compute_cost_run w b s x y xs ys Hx Hy). cbn [fst].
  rewrite (cost_value_ok w b xs ys Hm) by lia. now split.
Qed.

Lemma compute_cost_formula_witness :
  let s := script_store LinearRegression.x_train LinearRegression.y_train in
  heap s !! 0%nat = Some LinearRegression.x_train
  /\ heap s !! 1%nat = Some LinearRegression.y_train
  /\ fst (CostFunction.compute_cost (NpI 300) (NpI (-50)) 0 1 s)
     = Ok (cost_in_order (NpI 300) (NpI (-50))
             LinearRegression.x_train LinearRegression.y_train)
  /\ fst (LinearRegression.compute_cost 0 1 (NpI 300) (NpI (-50)) s)
     = Ok (cost_in_order (NpI 300) (NpI (-50))
             LinearRegression.x_train LinearRegression.y_train).
Proof.
  split; [reflexivity|]. split; [reflexivity|].
  apply (compute_cost_formula (NpI 300) (NpI (-50))
           (script_store LinearRegression.x_train LinearRegression.y_train) 0 1
           LinearRegression.x_train LinearRegression.y_train);
    [reflexivity | reflexivity | reflexivity | simpl; lia].
Defined.

(** C2, as the specification states it, fails: with [x = [1.0]] and
    [y = [2.0, 3.0]] the lengths differ and yet [compute_cost] raises
    nothing. *)
Lemma compute_cost_invalid_input_counterexample :
  let s := script_store (np_floats [1.0]%float) (np_floats [2.0; 3.0]%float) in
  heap s !! 0%nat = Some (np_floats [1.0]%float)
  /\ heap s !! 1%nat = Some (np_floats [2.0; 3.0]%float)
  /\ ~ ((exists e, fst (CostFunction.compute_cost (NpI 0) (NpI 0) 0 1 s) = Raise e)
        <-> (length (np_floats [1.0]%float) = 0%nat
             \/ length (np_floats [1.0]%float) <> length (np_floats [2.0; 3.0]%float))).
Proof.
  split; [reflexivity|]. split; [reflexivity|].
  intros [_ H]. destruct H as [e He].
  - right. simpl. lia.
  - vm_compute in He. discriminate He.
Qed.

(** C2, amended.  [compute_cost] (either script's) fails exactly when [x]
    is empty, with ZeroDivisionError from [1/(2*m)], or [y] is shorter
    than [x], with IndexError from [y[i]]; on every other input, a [y]
    longer than [x] included, it returns a number. *)
Theorem compute_cost_failures {num : Type} {A : Arith num} (w b : num) s x y xs ys :
  heap s !! x = Some xs -> heap s !! y = Some ys ->
  let r := fst (CostFunction.compute_cost w b x y s) in
  fst (LinearRegression.compute_cost x y w b s) = r
  /\ (length xs = 0%nat -> r = Raise ZeroDivisionError)
  /\ ((1 <= length xs)%nat -> (length ys < length xs)%nat -> r = Raise IndexError)
  /\ ((1 <= length xs)%nat -> (length xs <= length ys)%nat -> exists c, r = Ok c)
  /\ ((exists e, r = Raise e) <-> (length xs = 0%nat \/ (length ys < length xs)%nat)).
Proof.
  intros Hx Hy r. subst r.
  rewrite LinearRegression_compute_cost_unfold, (compute_cost_run w b s x y xs ys Hx Hy).
  cbn [fst].
  assert (length xs = 0%nat -> cost_value w b xs ys = Raise ZeroDivisionError) as H0.
  { intros E. destruct xs; [apply cost_value_empty | discriminate E]. }
  assert ((1 <= length xs)%nat -> (length xs <= length ys)%nat ->
          exists c, cost_value w b xs ys = Ok c) as H1.
  { intros Hm Hle. eexists. now apply cost_value_ok. }
  split; [reflexivity|]. split; [exact H0|].
  split; [intros _; apply cost_value_short|]. split; [exact H1|].
  split.
  - intros [e He].
    destruct (decide (length xs = 0%nat)) as [|Hne]; [now left | right].
    destruct (decide (length ys < length xs)%nat) as [|Hge]; [assumption|].
    destruct H1 as [c Hc]; [lia | lia | congruence].
  - intros [E | Hlt].
    + exists ZeroDivisionError. now apply H0.
    + exists IndexError. now apply cost_value_short.
Qed.

Lemma compute_cost_failures_witness :
  let xs := np_floats [1.0]%float in
  let ys := np_floats [2.0; 3.0]%float in
  let s := script_store xs ys in
  heap s !! 0%nat = Some xs /\ heap s !! 1%nat = Some ys
  /\ let r := fst (CostFunction.compute_cost (NpI 0) (NpI 0) 0 1 s) in
     fst (LinearRegression.compute_cost 0 1 (NpI 0) (NpI 0) s) = r
     /\ (length xs = 0%nat -> r = Raise ZeroDivisionError)
     /\ ((1 <= length xs)%nat -> (length ys < length xs)%nat -> r = Raise IndexError)
     /\ ((1 <= length xs)%nat -> (length xs <= length ys)%nat -> exists c, r = Ok c)
     /\ ((exists e, r = Raise e)
         <-> (length xs = 0%nat \/ (length ys < length xs)%nat)).
Proof.
  split; [reflexivity|]. split; [reflexivity|].
  apply (compute_cost_failures (NpI 0) (NpI 0)
           (script_store (np_floats [1.0]%float) (np_floats [2.0; 3.0]%float)) 0 1
           (np_floats [1.0]%float) (np_floats [2.0; 3.0]%float));
    reflexivity.
Defined.







(** C5.  With [x = [1, 2]], [y = [2, 4]], [w = 2] and [b = 0],
    [compute_cost] returns 0, the line fits the samples: in the
    arithmetic of numpy, whether each array and each of [w], [b] holds
    integers or float64 numbers, and in exact arithmetic. *)
Theorem compute_cost_perfect_fit (w b : npnum) (xs ys : list npnum)
    (s : store npnum) (x y : nat) (s' : store Q) (x' y' : nat) :
  np_is 2 w -> np_is 0 b -> Forall2 np_is [1; 2]%Z xs -> Forall2 np_is [2; 4]%Z ys ->
  heap s !! x = Some xs -> heap s !! y = Some ys ->
  heap s' !! x' = Some [1; 2]%Q -> heap s' !! y' = Some [2; 4]%Q ->
  fst (CostFunction.compute_cost w b x y s) = Ok (NpF 0%float)
  /\ returns (CostFunction.compute_cost 2%Q 0%Q x' y') s' 0.
Proof.
  intros Hw Hb Hxs Hys Hx Hy Hx' Hy'. split.
  - rewrite (compute_cost_run w b s x y xs ys Hx Hy). cbn [fst].
    inversion Hxs as [|? x1 ? l1 H1 Hxs']; subst; clear Hxs.
    inversion Hxs' as [|? x2 ? l2 H2 Hxs'']; subst; clear Hxs'.
    inversion Hxs''; subst; clear Hxs''.
    inversion Hys as [|? y1 ? k1 G1 Hys']; subst; clear Hys.
    inversion Hys' as [|? y2 ? k2 G2 Hys'']; subst; clear Hys'.
    inversion Hys''; subst; clear Hys''.
    destruct Hw as [-> | ->], Hb as [-> | ->], H1 as [-> | ->], H2 as [-> | ->],
      G1 as [-> | ->], G2 as [-> | ->]; vm_compute; reflexivity.
  - eexists. rewrite (compute_cost_run (2%Q) (0%Q) s' x' y' _ _ Hx' Hy').
    split; [vm_compute; reflexivity | reflexivity].
Qed.

Lemma compute_cost_perfect_fit_witness :
  let s := script_store (np_floats [1.0; 2.0]%float) (np_floats [2.0; 4.0]%float) in
  let s' := script_store [1; 2]%Q [2; 4]%Q in
  fst (CostFunction.compute_cost (NpI 2) (NpI 0) 0 1 s) = Ok (NpF 0%float)
  /\ returns (CostFunction.compute_cost 2%Q 0%Q 0 1) s' 0.
Proof.
  apply (compute_cost_perfect_fit (NpI 2) (NpI 0)
           (np_floats [1.0; 2.0]%float) (np_floats [2.0; 4.0]%float)
           (script_store (np_floats [1.0; 2.0]%float) (np_floats [2.0; 4.0]%float)) 0 1
           (script_store [1; 2]%Q [2; 4]%Q) 0 1);
    try reflexivity;
    try (left; reflexivity);
    repeat (constructor; [right; reflexivity|]); constructor.
Defined.

(** C6.  With the single sample [x = [1]], [y = [5]] and [w = 0],
    [b = 0], [compute_cost] returns [(0 - 5)^2 / 2 = 12.5]: in the
    arithmetic of numpy, whether each array and each of [w], [b] holds
    integers or float64 numbers, and in exact arithmetic. *)
Theorem compute_cost_single_sample (w b : npnum) (xs ys : list npnum)
    (s : store npnum) (x y : nat) (s' : store Q) (x' y' : nat) :
  np_is 0 w -> np_is 0 b -> Forall2 np_is [1]%Z xs -> Forall2 np_is [5]%Z ys ->
  heap s !! x = Some xs -> heap s !! y = Some ys ->
  heap s' !! x' = Some [1]%Q -> heap s' !! y' = Some [5]%Q ->
  fst (CostFunction.compute_cost w b x y s) = Ok (NpF 12.5%float)
  /\ returns (CostFunction.compute_cost 0%Q 0%Q x' y') s' (((0 - 5) ^ 2) / 2)
  /\ ((0 - 5) ^ 2 / 2 == 125 # 10)%Q.
Proof.
  intros Hw Hb Hxs Hys Hx Hy Hx' Hy'. split; [|split; [|reflexivity]].
  - rewrite (compute_cost_run w b s x y xs ys Hx Hy). cbn [fst].
    inversion Hxs as [|? x1 ? l1 H1 Hxs']; subst; clear Hxs.
    inversion Hxs'; subst; clear Hxs'.
    inversion Hys as [|? y1 ? k1 G1 Hys']; subst; clear Hys.
    inversion Hys'; subst; clear Hys'.
    destruct Hw as [-> | ->], Hb as [-> | ->], H1 as [-> | ->], G1 as [-> | ->];
      vm_compute; reflexivity.
  - eexists. rewrite (compute_cost_run (0%Q) (0%Q) s' x' y' _ _ Hx' Hy').
    split; [vm_compute; reflexivity | reflexivity].
Qed.

Lemma compute_cost_single_sample_witness :
  let s := script_store (np_floats [1.0]%float) (np_floats [5.0]%float) in
  let s' := script_store [1]%Q [5]%Q in
  fst (CostFunction.compute_cost (NpI 0) (NpI 0) 0 1 s) = Ok (NpF 12.5%float)
  /\ returns (CostFunction.compute_cost 0%Q 0%Q 0 1) s' (((0 - 5) ^ 2) / 2)
  /\ ((0 - 5) ^ 2 / 2 == 125 # 10)%Q.
Proof.
  apply (compute_cost_single_sample (NpI 0) (NpI 0)
           (np_floats [1.0]%float) (np_floats [5.0]%float)
           (script_store (np_floats [1.0]%float) (np_floats [5.0]%float)) 0 1
           (script_store [1]%Q [5]%Q) 0 1);
    try reflexivity;
    try (left; reflexivity);
    repeat (constructor; [right; reflexivity|]); constructor.
Defined.

(** C7.  [compute_cost] (either script's) is deterministic and pure: two
    invocations on equal inputs, whatever the stores they run in and the
    references that hold the inputs, have the same outcome, and each
    leaves its store, the input arrays, every other array and the output
    included, as it found it. *)
Theorem compute_cost_pure {num : Type} {A : Arith num} (w b : num)
    s1 x1 y1 s2 x2 y2 xs ys :
  heap s1 !! x1 = Some xs -> heap s1 !! y1 = Some ys ->
  heap s2 !! x2 = Some xs -> heap s2 !! y2 = Some ys ->
  (fst (CostFunction.compute_cost w b x1 y1 s1)
   = fst (CostFunction.compute_cost w b x2 y2 s2)
   /\ snd (CostFunction.compute_cost w b x1 y1 s1) = s1
   /\ snd (CostFunction.compute_cost w b x2 y2 s2) = s2)
  /\ (fst (LinearRegression.compute_cost x1 y1 w b s1)
      = fst (LinearRegression.compute_cost x2 y2 w b s2)
      /\ snd (LinearRegression.compute_cost x1 y1 w b s1) = s1
      /\ snd (LinearRegression.compute_cost x2 y2 w b s2) = s2).
Proof.
  intros Hx1 Hy1 Hx2 Hy2. rewrite !LinearRegression_compute_cost_unfold.
  rewrite (compute_cost_run w b s1 x1 y1 xs ys Hx1 Hy1).
  rewrite (compute_cost_run w b s2 x2 y2 xs ys Hx2 Hy2).
  repeat split.
Qed.

Lemma compute_cost_pure_witness :
  let s1 := script_store LinearRegression.x_train LinearRegression.y_train in
  let s2 := Store (<[7%nat := LinearRegression.y_train]>
                     (<[4%nat := LinearRegression.x_train]> ∅))
                  [PrintItem 0 (NpF 1.0%float)] in
  (fst (CostFunction.compute_cost (NpI 300) (NpI (-50)) 0 1 s1)
   = fst (CostFunction.compute_cost (NpI 300) (NpI (-50)) 4 7 s2)
   /\ snd (CostFunction.compute_cost (NpI 300) (NpI (-50)) 0 1 s1) = s1
   /\ snd (CostFunction.compute_cost (NpI 300) (NpI (-50)) 4 7 s2) = s2)
  /\ (fst (LinearRegression.compute_cost 0 1 (NpI 300) (NpI (-50)) s1)
      = fst (LinearRegression.compute_cost 4 7 (NpI 300) (NpI (-50)) s2)
      /\ snd (LinearRegression.compute_cost 0 1 (NpI 300) (NpI (-50)) s1) = s1
      /\ snd (LinearRegression.compute_cost 4 7 (NpI 300) (NpI (-50)) s2) = s2).
Proof.
  apply (compute_cost_pure (NpI 300) (NpI (-50))
           (script_store LinearRegression.x_train LinearRegression.y_train) 0 1
           (Store (<[7%nat := LinearRegression.y_train]>
                     (<[4%nat := LinearRegression.x_train]> ∅))
                  [PrintItem 0 (NpF 1.0%float)]) 4 7
           LinearRegression.x_train LinearRegression.y_train);
    reflexivity.
Defined.

(** C8.  The [compute_cost] of CostFunction.py, called as [(w, b, x, y)],
    and the [compute_cost] of LinearRegression.py, called as
    [(x, y, w, b)], return equal values on every common input with
    equal-length [x] and [y] and [m >= 1]. *)
Theorem compute_cost_scripts_agree {num : Type} {A : Arith num} (w b : num) s x y xs ys :
  heap s !! x = Some xs -> heap s !! y = Some ys ->
  length xs = length ys -> (1 <= length xs)%nat ->
  exists c, CostFunction.compute_cost w b x y s = (Ok c, s)
            /\ LinearRegression.compute_cost x y w b s = (Ok c, s).
Proof.
  intros Hx Hy Hlen Hm.
  exists (cost_in_order w b xs ys). rewrite LinearRegression_compute_cost_unfold.
  rewrite (compute_cost_run w b s x y xs ys Hx Hy).
  rewrite (cost_value_ok w b xs ys Hm) by lia. now split.
Qed.

Lemma compute_cost_scripts_agree_witness :
  let s := script_store CostFunction.x_train CostFunction.y_train in
  exists c, CostFunction.compute_cost (NpI 200) (NpI (-100)) 0 1 s = (Ok c, s)
            /\ LinearRegression.compute_cost 0 1 (NpI 200) (NpI (-100)) s = (Ok c, s).
Proof.
  apply (compute_cost_scripts_agree (NpI 200) (NpI (-100))
           (script_store CostFunction.x_train CostFunction.y_train) 0 1
           CostFunction.x_train CostFunction.y_train);
    [reflexivity | reflexivity | reflexivity | simpl; lia].
Defined.

(** C9.  When [y] is strictly longer than [x] and [x] has at least one
    element, [compute_cost] (either script's) raises nothing: it returns
    the cost of the first [m = len(x)] pairs, that is the very value it
    returns on [x] and the first [m] elements of [y], the further
    elements of [y] being ignored. *)
Theorem compute_cost_longer_y {num : Type} {A : Arith num} (w b : num)
    s x y xs ys s' x' y' :
  heap s !! x = Some xs -> heap s !! y = Some ys ->
  (1 <= length xs)%nat -> (length xs < length ys)%nat ->
  heap s' !! x' = Some xs -> heap s' !! y' = Some (take (length xs) ys) ->
  exists c,
    (fst (CostFunction.compute_cost w b x y s) = Ok c
     /\ fst (CostFunction.compute_cost w b x' y' s') = Ok c)
    /\ (fst (LinearRegression.compute_cost x y w b s) = Ok c
        /\ fst (LinearRegression.compute_cost x' y' w b s') = Ok c)
    /\ c = cost_in_order w b xs (take (length xs) ys).
Proof.
  intros Hx Hy Hm Hlt Hx' Hy'.
  exists (cost_in_order w b xs ys). rewrite !LinearRegression_compute_cost_unfold.
  rewrite (compute_cost_run w b s x y xs ys Hx Hy).
  rewrite (compute_cost_run w b s' x' y' _ _ Hx' Hy'). cbn [fst].
  rewrite (cost_value_ok w b xs ys Hm) by lia.
  rewrite (cost_value_ok w b xs (take (length xs) ys) Hm)
    by (rewrite length_take; lia).
  unfold cost_in_order. rewrite sq_residuals_take. repeat split.
Qed.

Lemma compute_cost_longer_y_witness :
  let xs := np_floats [1.0; 2.0]%float in
  let ys := np_floats [2.0; 4.0; 1000.0]%float in
  let s := script_store xs ys in
  let s' := script_store xs (np_floats [2.0; 4.0]%float) in
  take (length xs) ys = np_floats [2.0; 4.0]%float
  /\ exists c,
       (fst (CostFunction.compute_cost (NpI 1) (NpI 0) 0 1 s) = Ok c
        /\ fst (CostFunction.compute_cost (NpI 1) (NpI 0) 0 1 s') = Ok c)
       /\ (fst (LinearRegression.compute_cost 0 1 (NpI 1) (NpI 0) s) = Ok c
           /\ fst (LinearRegression.compute_cost 0 1 (NpI 1) (NpI 0) s') = Ok c)
       /\ c = cost_in_order (NpI 1) (NpI 0) xs (take (length xs) ys).
Proof.
  split; [reflexivity|].
  apply (compute_cost_longer_y (NpI 1) (NpI 0)
           (script_store (np_floats [1.0; 2.0]%float)
                         (np_floats [2.0; 4.0; 1000.0]%float)) 0 1
           (np_floats [1.0; 2.0]%float) (np_floats [2.0; 4.0; 1000.0]%float)
           (script_store (np_floats [1.0; 2.0]%float) (np_floats [2.0; 4.0]%float)) 0 1);
    [reflexivity | reflexivity | simpl; lia | simpl; lia | reflexivity | reflexivity].
Defined.

(** ** The model output *)



(** ** Further properties of the model output *)

(** X1.  [compite_model_output] returns an array that did not exist
    before the call, so never its input nor an alias of any other array,
    and it leaves every array that existed, [x] included, as it was. *)
Theorem compite_model_output_frame {num : Type} {A : Arith num} (w b : num) s x xs :
  heap s !! x = Some xs ->
  exists f_wb s',
    linearRegression.compite_model_output x w b s = (Ok f_wb, s')
    /\ heap s !! f_wb = None
    /\ heap s' !! x = Some xs
    /\ forall r, r <> f_wb -> heap s' !! r = heap s !! r.
Proof.
  intros Hx. eexists _, _. split; [apply (compite_model_output_run w b s x xs Hx)|].
  cbn [heap]. split; [apply fresh_not_allocated|]. split.
  - rewrite lookup_insert_ne; [exact Hx|].
    intros E. now apply (allocated_not_fresh (heap s) x xs Hx).
  - intros r Hr. now rewrite lookup_insert_ne.
Qed.

Lemma compite_model_output_frame_witness :
  let s := script_store linearRegression.x_train linearRegression.y_train in
  heap s !! 0%nat = Some linearRegression.x_train
  /\ exists f_wb s',
       linearRegression.compite_model_output 0 (NpI 130) (NpI 200) s = (Ok f_wb, s')
       /\ heap s !! f_wb = None
       /\ heap s' !! 0%nat = Some linearRegression.x_train
       /\ forall r, r <> f_wb -> heap s' !! r = heap s !! r.
Proof.
  split; [reflexivity|].
  apply (compite_model_output_frame (NpI 130) (NpI 200)
           (script_store linearRegression.x_train linearRegression.y_train) 0
           linearRegression.x_train).
  reflexivity.
Defined.



(** X3.  On an empty array [compite_model_output] raises nothing: it
    returns a new empty array and prints the one line that shows it. *)
Theorem compite_model_output_empty {num : Type} {A : Arith num} (w b : num) s x :
  heap s !! x = Some [] ->
  exists f_wb,
    linearRegression.compite_model_output x w b s
    = (Ok f_wb, Store (<[f_wb := []]> (heap s)) (stdout s ++ [PrintArray []]))
    /\ heap s !! f_wb = None.
Proof.
  intros Hx. exists (fresh (dom (heap s))).
  split; [apply (compite_model_output_run w b s x [] Hx)|].
  apply fresh_not_allocated.
Qed.

Lemma compite_model_output_empty_witness :
  let s := script_store (np_floats []) (np_floats []) in
  heap s !! 0%nat = Some []
  /\ exists f_wb,
       linearRegression.compite_model_output 0 (NpI 130) (NpI 200) s
       = (Ok f_wb, Store (<[f_wb := []]> (heap s)) (stdout s ++ [PrintArray []]))
       /\ heap s !! f_wb = None.
Proof.
  split; [reflexivity|].
  apply (compite_model_output_empty (NpI 130) (NpI 200)
           (script_store (np_floats []) (np_floats [])) 0).
  reflexivity.
Defined.



(** ** The cost and the model output together *)

Lemma np_sq_residuals_model_output (w b : npnum) fxs : forall ys,
  sq_residuals w b (np_floats fxs) ys
  = zip_with (fun f yi => sqr (f - yi)%num)
             (map (fun v => as_float64 (w * v + b)%num) (np_floats fxs)) ys.
Proof.
  induction fxs as [|x fxs IH]; intros [|y ys]; try reflexivity.
  unfold sq_residuals in *. cbn [np_floats map zip_with]. f_equal; [|apply IH].
  now destruct w, b.
Qed.

(** X6.  On a float64 array [x] the cost is computed from the model
    output to the last bit: with [f_wb] the array that
    [compite_model_output(x, w, b)] returns, [compute_cost] (either
    script's) returns [(1/(2*m))] times the sum, accumulated in order,
    of the [(f_wb[i] - y[i])^2], and does so after that call as before
    it. *)
Theorem compute_cost_from_model_output (w b : npnum) s x y fxs ys :
  heap s !! x = Some (np_floats fxs) -> heap s !! y = Some ys ->
  length fxs = length ys -> (1 <= length fxs)%nat ->
  exists f_wb s' fs,
    linearRegression.compite_model_output x w b s = (Ok f_wb, s')
    /\ heap s' !! f_wb = Some fs
    /\ let v := (int_truediv 1 (2 * Z.of_nat (length fxs))
                 * sum_in_order (zip_with (fun f yi => sqr (f - yi)%num) fs ys))%num in
       (fst (CostFunction.compute_cost w b x y s) = Ok v
        /\ fst (CostFunction.compute_cost w b x y s') = Ok v)
       /\ (fst (LinearRegression.compute_cost x y w b s) = Ok v
           /\ fst (LinearRegression.compute_cost x y w b s') = Ok v).
Proof.
  intros Hx Hy Hlen Hm.
  assert (length (np_floats fxs) = length fxs) as Hl by apply length_map.
  eexists _, _, _. split; [apply (compite_model_output_run w b s x _ Hx)|].
  cbn [heap]. split; [apply lookup_insert_eq|]. cbn zeta.
  rewrite !LinearRegression_compute_cost_unfold.
  rewrite (compute_cost_run w b s x y _ ys Hx Hy).
  rewrite (compute_cost_run w b _ x y (np_floats fxs) ys).
  - cbn [fst]. rewrite cost_value_ok by (rewrite Hl; lia).
    unfold cost_in_order. rewrite Hl, np_sq_residuals_model_output. repeat split.
  - cbn [heap]. rewrite lookup_insert_ne; [exact Hx|].
    intros E. now apply (allocated_not_fresh (heap s) x _ Hx).
  - cbn [heap]. rewrite lookup_insert_ne; [exact Hy|].
    intros E. now apply (allocated_not_fresh (heap s) y ys Hy).
Qed.

Lemma compute_cost_from_model_output_witness :
  let s := script_store CostFunction.x_train CostFunction.y_train in
  exists f_wb s' fs,
    linearRegression.compite_model_output 0 (NpI 200) (NpI (-100)) s = (Ok f_wb, s')
    /\ heap s' !! f_wb = Some fs
    /\ let v := (int_truediv 1 (2 * Z.of_nat (length [1.0; 1.7; 2.0; 2.5; 3.0; 3.2]%float))
                 * sum_in_order (zip_with (fun f yi => sqr (f - yi)%num) fs
                                          CostFunction.y_train))%num in
       (fst (CostFunction.compute_cost (NpI 200) (NpI (-100)) 0 1 s) = Ok v
        /\ fst (CostFunction.compute_cost (NpI 200) (NpI (-100)) 0 1 s') = Ok v)
       /\ (fst (LinearRegression.compute_cost 0 1 (NpI 200) (NpI (-100)) s) = Ok v
           /\ fst (LinearRegression.compute_cost 0 1 (NpI 200) (NpI (-100)) s') = Ok v).
Proof.
  apply (compute_cost_from_model_output (NpI 200) (NpI (-100))
           (script_store CostFunction.x_train CostFunction.y_train) 0 1
           [1.0; 1.7; 2.0; 2.5; 3.0; 3.2]%float CostFunction.y_train);
    [reflexivity | reflexivity | reflexivity | simpl; lia].
Defined.

(** ** The scripts on their own data *)

Example model_output_of_script :
  let s := script_store linearRegression.x_train linearRegression.y_train in
  let r := linearRegression.compite_model_output 0 (NpI 130) (NpI 200) s in
  fst r = Ok 2%nat
  /\ heap (snd r) !! 2%nat = Some (np_floats [330.0; 460.0; 720.0]%float)
  /\ heap (snd r) !! 0%nat = Some linearRegression.x_train
  /\ stdout (snd r)
     = [PrintArray (np_floats [0.0; 0.0; 0.0]%float); PrintItem 0 (NpF 330.0%float);
        PrintItem 1 (NpF 460.0%float); PrintItem 2 (NpF 720.0%float)].
Proof. vm_compute. repeat split. Qed.

Example cost_of_script :
  fst (LinearRegression.compute_cost 0 1 (NpI 300) (NpI (-50))
         (script_store LinearRegression.x_train LinearRegression.y_train))
  = Ok (NpF 9119.8000000000011%float).
Proof. vm_compute. reflexivity. Qed.

Example cost_of_no_sample :
  fst (CostFunction.compute_cost (NpI 2) (NpI 0) 0 1
         (script_store (np_floats []) (np_floats [])))
  = Raise ZeroDivisionError.
Proof. reflexivity. Qed.

Example cost_of_short_y :
  fst (CostFunction.compute_cost (NpI 2) (NpI 0) 0 1
         (script_store (np_floats [1.0; 2.0]%float) (np_floats [2.0]%float)))
  = Raise IndexError.
Proof. reflexivity. Qed.

Example cost_of_script_exact :
  returns (LinearRegression.compute_cost 0 1 300%Q (-50)%Q)
    (script_store [1; 2; 3; 4; 5]%Q [289; 540; 860; 1364; 1659]%Q)
    (45599 # 5).
Proof. eexists. split; [vm_compute; reflexivity | reflexivity]. Qed.
